(** * XI Class Admission announcement monitor (src/app.py)

    A shallow embedding of the polling / de-duplication / notification
    logic of the Streamlit script [src/app.py], and the properties of it
    that the design document states.

    Modelling conventions.
    - Python [str] values are [string]s; the digit class [\d] is read on
      the ASCII digits ['0'..'9'].
    - Python [int] is [Z] (unbounded).
    - [time.time()] instants are exact rationals ([Q]); the rounding of
      binary floating point is not represented.
    - The decoded JSON payload is a dynamically typed value ([json]); every
      subscript, membership test and truth test of the script is modelled
      with the exception Python raises when the shape is unexpected.
    - [st.session_state] is a record; its mutations survive an exception,
      so a script run is a function [World -> (exn + A) * World].
    - [st.rerun()] stops the current run by raising, as Streamlit does.
    - Everything outside the process (the clock, the HTTP endpoint, the
      SMTP server, the widgets) is read from an [Env] record that is given
      per script run; everything the script does to the outside is
      appended to a trace of [Effect]s.
    - Not represented: the static text of the page (title, headers), an
      exception of [requests.get] that is not a [RequestException], and
      the interpreter's limit on the length of a digit string given to
      [int]. *)

From Stdlib Require Import Bool List String Ascii ZArith QArith Qround Qminmax Lia.
From Stdlib Require Import DecimalString Lqa.
Import ListNotations.

Set Warnings "-register-all".

Local Open Scope string_scope.
Local Open Scope Z_scope.

(** ** Strings *)

Module Str.

(** Python [needle in hay] on two [str] values: substring test. *)
Fixpoint contains (needle hay : string) : bool :=
  if prefix needle hay then true
  else match hay with
       | EmptyString => false
       | String _ rest => contains needle rest
       end.

Definition chars (s : string) : list ascii := list_ascii_of_string s.

Definition is_empty (s : string) : bool :=
  match s with EmptyString => true | String _ _ => false end.

End Str.

(** ** Announcement Identifier: [get_numeric_from_filename] *)

Definition is_digit (c : ascii) : bool :=
  let n := Z.of_nat (nat_of_ascii c) in (48 <=? n) && (n <=? 57).

Definition digit_value (c : ascii) : Z := Z.of_nat (nat_of_ascii c) - 48.

(** [re.findall(r'\d+', s)]: the scanner walks [s] from the left; [run]
    is the greedy match in progress.  A non-digit (or the end of the
    string) closes the match in progress, if there is one. *)
Definition flush (run : string) : list string :=
  if Str.is_empty run then [] else [run].

Fixpoint scan_digits (run : string) (s : string) : list string :=
  match s with
  | EmptyString => flush run
  | String c rest =>
      if is_digit c then scan_digits (run ++ String c EmptyString) rest
      else (flush run ++ scan_digits EmptyString rest)%list
  end.

Definition re_findall_digits (s : string) : list string :=
  scan_digits EmptyString s.

(** [int(text)] on a string of decimal digits. *)
Definition py_int (text : string) : Z :=
  fold_left (fun acc c => 10 * acc + digit_value c) (Str.chars text) 0.

(** def get_numeric_from_filename(filename):
        numbers = re.findall(r'\d+', filename)
        return int(numbers[0]) if numbers else 0 *)
Definition get_numeric_from_filename (filename : string) : Z :=
  let numbers := re_findall_digits filename in
  match numbers with
  | first :: _ => py_int first
  | [] => 0
  end.

(** The design document's wording, for comparison: the value of a run of
    decimal digits, written positionally. *)
Fixpoint decimal_value (ds : list ascii) : Z :=
  match ds with
  | [] => 0
  | d :: rest => digit_value d * 10 ^ Z.of_nat (List.length rest) + decimal_value rest
  end.

Definition all_digits (s : string) : Prop :=
  Forall (fun c => is_digit c = true) (Str.chars s).

Definition no_digits (s : string) : Prop :=
  Forall (fun c => is_digit c = false) (Str.chars s).

(** [s] is empty or begins with a character that is not a digit. *)
Definition not_digit_led (s : string) : Prop :=
  match s with
  | EmptyString => True
  | String c _ => is_digit c = false
  end.

(** ** Decoded JSON values and the Python operations the script applies *)

Inductive json : Type :=
| JNull                                   (* None *)
| JBool (b : bool)
| JNum (q : Q)                            (* int or float *)
| JStr (s : string)
| JArr (items : list json)
| JObj (fields : list (string * json)).   (* dict, looked up by key *)

Inductive exn : Type :=
| KeyError
| IndexError
| TypeError
| RerunException.                         (* raised by st.rerun() *)

Definition result (A : Type) : Type := (exn + A)%type.

Module Py.

(** [bool(v)] *)
Definition truthy (v : json) : bool :=
  match v with
  | JNull => false
  | JBool b => b
  | JNum q => negb (Qnum q =? 0)
  | JStr s => negb (Str.is_empty s)
  | JArr items => match items with [] => false | _ :: _ => true end
  | JObj fields => match fields with [] => false | _ :: _ => true end
  end.

Fixpoint dict_get (key : string) (fields : list (string * json)) : option json :=
  match fields with
  | [] => None
  | (k, v) :: rest => if String.eqb key k then Some v else dict_get key rest
  end.

Definition is_str (key : string) (v : json) : bool :=
  match v with JStr s => String.eqb key s | _ => false end.

(** [key in v] for a [str] key. *)
Definition contains (key : string) (v : json) : result bool :=
  match v with
  | JObj fields =>
      inr (match dict_get key fields with Some _ => true | None => false end)
  | JArr items => inr (existsb (is_str key) items)
  | JStr s => inr (Str.contains key s)
  | JNull | JBool _ | JNum _ => inl TypeError
  end.

(** [v[key]] for a [str] key. *)
Definition getitem (v : json) (key : string) : result json :=
  match v with
  | JObj fields =>
      match dict_get key fields with Some x => inr x | None => inl KeyError end
  | _ => inl TypeError
  end.

(** [v[0]] *)
Definition getitem0 (v : json) : result json :=
  match v with
  | JArr (x :: _) => inr x
  | JArr [] => inl IndexError
  | JStr (String c _) => inr (JStr (String c EmptyString))
  | JStr EmptyString => inl IndexError
  | JObj _ => inl KeyError
  | JNull | JBool _ | JNum _ => inl TypeError
  end.

(** [int(x)] on a float: truncation toward zero. *)
Definition int_of_float (x : Q) : Z := Z.quot (Qnum x) (Z.pos (Qden x)).

(** [f"{n:02d}"] *)
Definition fmt_02d (n : Z) : string :=
  let s := NilZero.string_of_int (Z.to_int n) in
  if (String.length s <? 2)%nat then "0" ++ s else s.

End Py.

(** ** The session state, the outside world and the script monad *)

Record SessionState : Type := {
  monitoring : bool;
  last_known_filename : string;
  last_check_time : Q;
  log : list string
}.

Record SmtpConfig : Type := {
  server : string;
  port : Z;
  sender_email : string;
  password : string;
  recipient_email : string
}.

Record Email : Type := {
  msg_from : string;
  msg_to : string;
  msg_subject : string;
  msg_html : string
}.

Inductive Effect : Type :=
| HttpGet (url : string) (timeout : Z)
| SmtpSubmit (cfg : SmtpConfig) (msg : Email)
| Toast (text icon : string)
| StError (text : string)
| StWarning (text : string)
| StatusSuccess (text : string)
| StatusError (text : string)
| Markdown (text : string)
| Metric (label value : string)
| MetricCleared
| Print (text : string)
| Sleep (seconds : Z).

Inductive Button : Type := StartMonitoring | StopMonitoring | ClearLog.

Inductive HttpOutcome : Type :=
| HttpOk (body : json)          (* 2xx status and a body that decodes *)
| HttpFailed (e : string).      (* any requests.exceptions.RequestException *)

Inductive SmtpOutcome : Type :=
| SmtpOk
| SmtpFailed (e : string).      (* any Exception inside the try block *)

(** What one run of the script reads from outside the process. *)
Record Env : Type := {
  clicked : option Button;       (* the st.button that triggered this run *)
  recipient_input : string;      (* st.text_input("Recipient Email Address") *)
  time_at_gate : Q;              (* time.time() at the interval test *)
  time_at_display : Q;           (* time.time() at the countdown *)
  now_str : string;              (* datetime.now().strftime('%I:%M:%S %p') *)
  http : HttpOutcome;
  smtp : SmtpOutcome;
  sender_password : string       (* deployment credential, not reproduced *)
}.

Record World : Type := {
  session : SessionState;
  trace : list Effect
}.

Definition M (A : Type) : Type := World -> result A * World.

Definition ret {A} (a : A) : M A := fun w => (inr a, w).

Definition raise {A} (e : exn) : M A := fun w => (inl e, w).

Definition bind {A B} (m : M A) (k : A -> M B) : M B :=
  fun w =>
    match m w with
    | (inr a, w') => k a w'
    | (inl e, w') => (inl e, w')
    end.

Definition lift {A} (r : result A) : M A :=
  match r with inr a => ret a | inl e => raise e end.

Definition get_state : M SessionState := fun w => (inr (session w), w).

Definition put_state (s : SessionState) : M unit :=
  fun w => (inr tt, {| session := s; trace := trace w |}).

Definition emit (ev : Effect) : M unit :=
  fun w => (inr tt, {| session := session w; trace := (trace w ++ [ev])%list |}).

Declare Scope script_scope.
Delimit Scope script_scope with script.
Notation "x <- m ;; k" := (bind m (fun x => k))
  (at level 61, m at next level, right associativity) : script_scope.
Notation "m ;;; k" := (bind m (fun _ => k))
  (at level 61, right associativity) : script_scope.
Local Open Scope script_scope.

(** Field updates of [st.session_state]. *)
Definition set_monitoring (b : bool) : M unit :=
  s <- get_state ;;
  put_state {| monitoring := b;
               last_known_filename := last_known_filename s;
               last_check_time := last_check_time s;
               log := log s |}.

Definition set_last_known_filename (f : string) : M unit :=
  s <- get_state ;;
  put_state {| monitoring := monitoring s;
               last_known_filename := f;
               last_check_time := last_check_time s;
               log := log s |}.

Definition set_last_check_time (t : Q) : M unit :=
  s <- get_state ;;
  put_state {| monitoring := monitoring s;
               last_known_filename := last_known_filename s;
               last_check_time := t;
               log := log s |}.

Definition set_log (l : list string) : M unit :=
  s <- get_state ;;
  put_state {| monitoring := monitoring s;
               last_known_filename := last_known_filename s;
               last_check_time := last_check_time s;
               log := l |}.

Definition log_append (entry : string) : M unit :=
  s <- get_state ;; set_log (log s ++ [entry])%list.

(** [st.rerun()] *)
Definition st_rerun {A} : M A := raise RerunException.

Fixpoint for_each {A} (xs : list A) (body : A -> M unit) : M unit :=
  match xs with
  | [] => ret tt
  | x :: rest => body x ;;; for_each rest body
  end.

(** ** The script *)

Definition API_URL : string :=
  "https://xiclassadmission.gov.bd/api/home/api/announcements".

Definition CHECK_INTERVAL_SECONDS : Q := 300 # 1.

Definition nl : string := String (ascii_of_nat 10) EmptyString.

(** The keys of [st.session_state] before the initialisation block has
    run: a key may be absent. *)
Record Store : Type := {
  st_monitoring : option bool;
  st_last_known_filename : option string;
  st_last_check_time : option Q;
  st_log : option (list string)
}.

Definition or_default {A} (o : option A) (d : A) : A :=
  match o with Some a => a | None => d end.

(** if 'monitoring' not in st.session_state: ... (and the three others) *)
Definition init_session_state (st : Store) : SessionState :=
  {| monitoring := or_default (st_monitoring st) false;
     last_known_filename := or_default (st_last_known_filename st) "23.txt";
     last_check_time := or_default (st_last_check_time st) (0 # 1);
     log := or_default (st_log st) [] |}.

Definition store_of (s : SessionState) : Store :=
  {| st_monitoring := Some (monitoring s);
     st_last_known_filename := Some (last_known_filename s);
     st_last_check_time := Some (last_check_time s);
     st_log := Some (log s) |}.

Definition empty_store : Store :=
  {| st_monitoring := None; st_last_known_filename := None;
     st_last_check_time := None; st_log := None |}.

(** The f-strings of the script. *)
Definition entry_started (now : string) : string :=
  "**[" ++ now ++ "]** Monitoring started.".

Definition entry_stopped (now : string) : string :=
  "**[" ++ now ++ "]** Monitoring stopped.".

Definition entry_new_found (now latest_filename : string) : string :=
  "**[" ++ now ++
  "]** :white_check_mark: **New Announcement Found!** Filename: `"
  ++ latest_filename ++ "`. Sending email.".

Definition entry_no_new (now latest_filename : string) : string :=
  "**[" ++ now ++ "]** No new announcements. Current latest is still `"
  ++ latest_filename ++ "`.".

Definition subject_for (latest_filename : string) : string :=
  "New XI Admission Announcement: " ++ latest_filename.

Definition status_active (last_known : string) : string :=
  "🟢 Monitoring is ACTIVE. Last known notice: `" ++ last_known ++ "`".

Definition status_stopped : string :=
  "🔴 Monitoring is STOPPED. Click 'Start Monitoring' in the sidebar to begin.".

Definition fetch_error_text (err : string) : string :=
  "Error fetching data: " ++ err.

Definition email_sent_text (recipient : string) : string :=
  "✅ Notification email sent to " ++ recipient ++ "!".

Definition send_error_text (err : string) : string :=
  "Failed to send email: " ++ err.

(** def fetch_data(url) *)
Definition fetch_data (e : Env) (url : string) : M json :=
  emit (HttpGet url 15) ;;;
  match http e with
  | HttpOk body => ret body
  | HttpFailed err =>
      emit (Toast (fetch_error_text err) "🔥") ;;;
      ret JNull
  end.

(** def send_email(subject, body, smtp_config) *)
Definition send_email (e : Env) (subject body : string) (cfg : SmtpConfig)
  : M bool :=
  let msg := {| msg_from := sender_email cfg;
                msg_to := recipient_email cfg;
                msg_subject := subject;
                msg_html := body |} in
  emit (SmtpSubmit cfg msg) ;;;
  match smtp e with
  | SmtpOk =>
      emit (Toast (email_sent_text (recipient_email cfg)) "📧") ;;;
      ret true
  | SmtpFailed err =>
      emit (StError (send_error_text err)) ;;;
      ret false
  end.

Definition smtp_config (e : Env) : SmtpConfig :=
  {| server := "mail.technogia.xyz";
     port := 465;
     sender_email := "notice@technogia.xyz";
     password := sender_password e;
     recipient_email := recipient_input e |}.

(** not recipient_email or "@" not in recipient_email *)
Definition invalid_recipient (r : string) : bool :=
  Str.is_empty r || negb (Str.contains "@" r).

(** if st.button("Start Monitoring", type="primary"): ... *)
Definition on_start (e : Env) : M unit :=
  if invalid_recipient (recipient_input e) then
    emit (StWarning
            "Please enter a valid recipient email address before starting.")
  else
    set_monitoring true ;;;
    set_last_check_time (0 # 1) ;;;
    log_append (entry_started (now_str e)) ;;;
    st_rerun.

(** if st.button("Stop Monitoring"): ... *)
Definition on_stop (e : Env) : M unit :=
  set_monitoring false ;;;
  log_append (entry_stopped (now_str e)) ;;;
  st_rerun.

(** if st.button("Clear Log"): ... *)
Definition on_clear_log : M unit :=
  set_log [] ;;;
  st_rerun.

Definition sidebar (e : Env) : M unit :=
  (match clicked e with Some StartMonitoring => on_start e | _ => ret tt end) ;;;
  (match clicked e with Some StopMonitoring => on_stop e | _ => ret tt end) ;;;
  (match clicked e with Some ClearLog => on_clear_log | _ => ret tt end).

(** current_time - st.session_state.last_check_time > CHECK_INTERVAL_SECONDS *)
Definition interval_passed (current_time last : Q) : bool :=
  negb (Qle_bool (current_time - last) CHECK_INTERVAL_SECONDS).

(** max(0, int(next_check_time - time.time())) *)
Definition time_left (last now : Q) : Z :=
  let next_check_time := (last + CHECK_INTERVAL_SECONDS)%Q in
  Z.max 0 (Py.int_of_float (next_check_time - now)).

Definition countdown_text (left : Z) : string :=
  let mins := left / 60 in
  let secs := left mod 60 in
  Py.fmt_02d mins ++ ":" ++ Py.fmt_02d secs.

Section Script.

(** [str(v)] for a decoded value that is not itself a [str] (the text
    Python prints for None, numbers, lists and dicts). *)
Variable py_str : json -> string.

(** f"{v}" *)
Definition fstr (v : json) : string :=
  match v with JStr s => s | other => py_str other end.

(** data and "announcements" in data and data["announcements"] *)
Definition payload_guard (data : json) : M bool :=
  if Py.truthy data then
    has <- lift (Py.contains "announcements" data) ;;
    if has then
      anns <- lift (Py.getitem data "announcements") ;;
      ret (Py.truthy anns)
    else ret false
  else ret false.

Definition email_body (filename content : string) : string :=
  nl ++
  "                <html><body>" ++ nl ++
  "                    <h2>A new announcement has been posted on the XI Class Admission website.</h2>" ++ nl ++
  "                    <p><strong>Filename:</strong> " ++ filename ++ "</p><hr>" ++ nl ++
  "                    <p><strong>Content:</strong></p><div>" ++ content ++ "</div>" ++ nl ++
  "                </body></html>" ++ nl ++
  "                ".

(** The body of [if data and ...:] (lines 143-169). *)
Definition compare_and_notify (e : Env) (data : json) : M unit :=
  anns <- lift (Py.getitem data "announcements") ;;
  latest_announcement <- lift (Py.getitem0 anns) ;;
  latest_filename <- lift (Py.getitem latest_announcement "filename") ;;
  s <- get_state ;;
  let last_known_num := get_numeric_from_filename (last_known_filename s) in
  match latest_filename with
  | JStr latest_name =>
      let latest_num := get_numeric_from_filename latest_name in
      if latest_num >? last_known_num then
        log_append (entry_new_found (now_str e) latest_name) ;;;
        let email_subject := subject_for latest_name in
        shown_name <- lift (Py.getitem latest_announcement "filename") ;;
        content <- lift (Py.getitem latest_announcement "content") ;;
        _ <- send_email e email_subject
               (email_body (fstr shown_name) (fstr content)) (smtp_config e) ;;
        set_last_known_filename latest_name
      else
        log_append (entry_no_new (now_str e) latest_name)
  | _ => raise TypeError      (* re.findall on a value that is not a str *)
  end.

(** The body of [if st.session_state.monitoring:] (lines 131-182): one
    tick of the monitor loop. *)
Definition tick (e : Env) : M unit :=
  s <- get_state ;;
  emit (StatusSuccess (status_active (last_known_filename s))) ;;;
  let current_time := time_at_gate e in
  (if interval_passed current_time (last_check_time s) then
     set_last_check_time current_time ;;;
     data <- fetch_data e API_URL ;;
     emit (Print "Api Has Been Called") ;;;
     ok <- payload_guard data ;;
     (if ok then compare_and_notify e data else ret tt) ;;;
     st_rerun
   else ret tt) ;;;
  s' <- get_state ;;
  emit (Metric "Next Check In"
          (countdown_text (time_left (last_check_time s') (time_at_display e)))) ;;;
  emit (Sleep 1) ;;;
  st_rerun.

Definition main_area (e : Env) : M unit :=
  s <- get_state ;;
  for_each (rev (log s)) (fun entry => emit (Markdown entry)) ;;;
  if monitoring s then tick e
  else
    emit (StatusError status_stopped) ;;;
    emit MetricCleared.

(** One run of the whole script on an initialised session state. *)
Definition script (e : Env) : M unit :=
  sidebar e ;;; main_area e.

(** The world a run leaves behind; what it raised is not kept, the
    session state and the effects are. *)
Definition after {A} (m : M A) (w : World) : World := snd (m w).

Definition outcome {A} (m : M A) (w : World) : result A := fst (m w).

(** One run of the script inside the process: the initialisation block
    first, then the page. *)
Definition run_script (e : Env) (st : Store) : Store :=
  store_of (session (after (script e)
                       {| session := init_session_state st; trace := [] |})).

(** A session: the script is run again and again, each run against its
    own reading of the outside. *)
Definition run_session (es : list Env) (w : World) : World :=
  fold_left (fun w e => after (script e) w) es w.

Definition run_ticks (es : list Env) (w : World) : World :=
  fold_left (fun w e => after (tick e) w) es w.

(** Observations on a trace. *)
Definition is_send (ev : Effect) : bool :=
  match ev with SmtpSubmit _ _ => true | _ => false end.

Definition is_fetch (ev : Effect) : bool :=
  match ev with HttpGet _ _ => true | _ => false end.

Definition is_notice (ev : Effect) : bool :=
  match ev with Toast _ _ | StError _ => true | _ => false end.

Definition count (p : Effect -> bool) (t : list Effect) : nat :=
  List.length (filter p t).

Definition ordinal (w : World) : Z :=
  get_numeric_from_filename (last_known_filename (session w)).

(** A process: the script is run again and again on the session state the
    previous run left, starting from an empty one. *)
Definition run_process (es : list Env) (st : Store) : Store :=
  fold_left (fun st e => run_script e st) es st.

(** The same run with another answer from the endpoint. *)
Definition with_http (e : Env) (h : HttpOutcome) : Env :=
  {| clicked := clicked e;
     recipient_input := recipient_input e;
     time_at_gate := time_at_gate e;
     time_at_display := time_at_display e;
     now_str := now_str e;
     http := h;
     smtp := smtp e;
     sender_password := sender_password e |}.

End Script.


(** The session state with the attempt time recorded, and with one more
    log entry: the two updates a tick makes besides the marker. *)
Definition checked_at (s : SessionState) (t : Q) : SessionState :=
  {| monitoring := monitoring s;
     last_known_filename := last_known_filename s;
     last_check_time := t;
     log := log s |}.

Definition with_entry (s : SessionState) (entry : string) : SessionState :=
  {| monitoring := monitoring s;
     last_known_filename := last_known_filename s;
     last_check_time := last_check_time s;
     log := (log s ++ [entry])%list |}.


Definition status_line (w : World) : Effect :=
  StatusSuccess (status_active (last_known_filename (session w))).

Definition countdown_line (last now : Q) : Effect :=
  Metric "Next Check In" (countdown_text (time_left last now)).



(** No press of Start with an acceptable recipient in this run. *)
Definition no_valid_start (e : Env) : Prop :=
  clicked e = Some StartMonitoring ->
  invalid_recipient (recipient_input e) = true.


(** Two digits, a colon, two digits. *)
Definition is_mm_ss (text : string) : bool :=
  (String.length text =? 5)%nat
  && match String.get 2 text with
     | Some c => Ascii.eqb c ":"
     | None => false
     end
  && forallb is_digit
       (Str.chars (String.substring 0 2 text ++ String.substring 3 2 text)).

(** ** Concrete inputs used by the examples below *)

Module Sample.

(** A rendering for the examples; they only interpolate strings. *)
Definition py_str (v : json) : string :=
  match v with
  | JNull => "None"
  | JBool true => "True"
  | JBool false => "False"
  | _ => ""
  end.

Definition env (btn : option Button) (recipient : string) (t_gate t_display : Q)
    (h : HttpOutcome) (m : SmtpOutcome) : Env :=
  {| clicked := btn;
     recipient_input := recipient;
     time_at_gate := t_gate;
     time_at_display := t_display;
     now_str := "09:15:00 AM";
     http := h;
     smtp := m;
     sender_password := "secret" |}.

Definition world (running : bool) (last_known : string) (last_check : Q)
    (entries : list string) : World :=
  {| session := {| monitoring := running;
                   last_known_filename := last_known;
                   last_check_time := last_check;
                   log := entries |};
     trace := [] |}.

Definition announcement (filename content : string) : json :=
  JObj [("filename", JStr filename); ("content", JStr content)].

Definition payload (items : list json) : json :=
  JObj [("announcements", JArr items)].

(** A clock reading of the present era, in seconds since the epoch. *)
Definition t0 : Q := 1700000000 # 1.

Definition half_past_t0 : Q := 3400000001 # 2.

(** Monitoring has just been started: the last check is "never". *)
Definition started (last_known : string) : World :=
  world true last_known (0 # 1) [].


Definition feed_24 : json :=
  payload [announcement "24.txt" "<p>Result published</p>";
           announcement "23.txt" "<p>Schedule</p>"].

Definition e_feed_24 (m : SmtpOutcome) : Env :=
  env None "a@b.com" t0 t0 (HttpOk feed_24) m.

Definition e_down : Env :=
  env None "a@b.com" t0 t0 (HttpFailed "Read timed out.") SmtpOk.

Definition e_empty_feed : Env :=
  env None "a@b.com" t0 t0 (HttpOk (payload [])) SmtpOk.

Definition e_half_second_later : Env :=
  env None "a@b.com" half_past_t0 half_past_t0 (HttpOk feed_24) SmtpOk.

Definition e_start (recipient : string) : Env :=
  env (Some StartMonitoring) recipient t0 t0 (HttpOk feed_24) SmtpOk.

Definition e_stop : Env :=
  env (Some StopMonitoring) "a@b.com" t0 t0 (HttpOk feed_24) SmtpOk.

Definition stopped : World := world false "24.txt" t0 ["earlier entry"].

(** More than five minutes after [t0]. *)
Definition t_later : Q := 1700000400 # 1.

Definition e_feed_24_later (m : SmtpOutcome) : Env :=
  env None "a@b.com" t_later t_later (HttpOk feed_24) m.

(** The first entry has no "content" key. *)
Definition e_bare_entry : Env :=
  env None "a@b.com" t0 t0
      (HttpOk (payload [JObj [("filename", JStr "24.txt")]])) SmtpOk.

Definition e_number : Env :=
  env None "a@b.com" t0 t0 (HttpOk (JNum (5 # 1))) SmtpOk.

Definition e_null : Env :=
  env None "a@b.com" t0 t0 (HttpOk JNull) SmtpOk.


Definition feed_24_then_99 : json :=
  payload [announcement "24.txt" "<p>Result published</p>";
           announcement "99.txt" "<p>Later notice</p>"].

End Sample.

(** * Properties *)

(** ** Ordinal extraction *)


Lemma append_nil_r (s : string) : s ++ "" = s.
Proof. induction s as [|c s IH]; simpl; congruence. Qed.

Lemma append_assoc (a b c : string) : (a ++ b) ++ c = a ++ (b ++ c).
Proof. induction a as [|x a IH]; simpl; congruence. Qed.

Lemma flush_cons (c : ascii) (s : string) : flush (String c s) = [String c s].
Proof. reflexivity. Qed.

Lemma flush_nonempty (run : string) : run <> "" -> flush run = [run].
Proof. destruct run; [congruence | reflexivity]. Qed.

Lemma scan_skips_non_digits (pre rest : string) :
  no_digits pre -> scan_digits "" (pre ++ rest) = scan_digits "" rest.
Proof.
  unfold no_digits, Str.chars.
  induction pre as [|c pre IH]; simpl; intros H; [reflexivity|].
  inversion H as [|? ? Hc Hrest]; subst. rewrite Hc. simpl. auto.
Qed.

Lemma scan_no_digits (s : string) : no_digits s -> scan_digits "" s = [].
Proof.
  intros H. rewrite <- (append_nil_r s). now rewrite scan_skips_non_digits.
Qed.

Lemma scan_takes_run (run post acc : string) :
  all_digits run -> not_digit_led post ->
  scan_digits acc (run ++ post) = (flush (acc ++ run) ++ scan_digits "" post)%list.
Proof.
  unfold all_digits, Str.chars.
  revert acc. induction run as [|d run IH]; simpl; intros acc Hrun Hpost.
  - rewrite append_nil_r. destruct post as [|c post]; simpl.
    + now rewrite app_nil_r.
    + simpl in Hpost. now rewrite Hpost.
  - inversion Hrun as [|? ? Hd Hrest]; subst. rewrite Hd.
    rewrite IH by assumption. now rewrite append_assoc.
Qed.

Lemma py_int_fold (ds : list ascii) (acc : Z) :
  fold_left (fun a c => 10 * a + digit_value c) ds acc
  = acc * 10 ^ Z.of_nat (List.length ds) + decimal_value ds.
Proof.
  revert acc. induction ds as [|d ds IH]; intros acc.
  - simpl. lia.
  - cbn [fold_left decimal_value List.length]. rewrite IH.
    rewrite Nat2Z.inj_succ, Z.pow_succ_r by lia. ring.
Qed.

Lemma py_int_decimal (text : string) :
  py_int text = decimal_value (Str.chars text).
Proof. unfold py_int. rewrite py_int_fold. lia. Qed.

(** Every string begins with a (possibly empty) maximal run of digits. *)
Lemma leading_run (s : string) :
  exists run post, s = run ++ post /\ all_digits run /\ not_digit_led post.
Proof.
  induction s as [|c s (run & post & Hs & Hrun & Hpost)].
  - exists "", "". repeat split; constructor.
  - destruct (is_digit c) eqn:Hc.
    + exists (String c run), post. subst s. repeat split; trivial.
      constructor; assumption.
    + exists "", (String c s). repeat split; trivial. constructor.
Qed.

(** The first maximal run of digits decides the result, wherever it is. *)
Lemma get_numeric_of_first_run (pre run post : string) :
  no_digits pre -> run <> "" -> all_digits run -> not_digit_led post ->
  get_numeric_from_filename (pre ++ run ++ post)
  = decimal_value (Str.chars run).
Proof.
  intros Hpre Hne Hrun Hpost.
  unfold get_numeric_from_filename, re_findall_digits.
  rewrite scan_skips_non_digits by assumption.
  rewrite scan_takes_run by assumption. simpl (_ ++ run).
  rewrite flush_nonempty by assumption. simpl. apply py_int_decimal.
Qed.

Lemma get_numeric_no_digits (s : string) :
  no_digits s -> get_numeric_from_filename s = 0.
Proof.
  intros H. unfold get_numeric_from_filename, re_findall_digits.
  now rewrite scan_no_digits.
Qed.

(** Every string either has no digit or splits around its first maximal
    run of digits. *)
Lemma first_run_exists (s : string) :
  no_digits s \/
  exists pre run post,
    s = pre ++ run ++ post /\ no_digits pre /\ run <> "" /\
    all_digits run /\ not_digit_led post.
Proof.
  induction s as [|c s IH].
  - left. constructor.
  - destruct (is_digit c) eqn:Hc.
    + right. destruct (leading_run s) as (run & post & Hs & Hrun & Hpost).
      exists "", (String c run), post. subst s.
      repeat split; trivial; try constructor; try assumption. discriminate.
    + destruct IH as [Hno | (pre & run & post & Hs & Hpre & Hne & Hrun & Hpost)].
      * left. constructor; assumption.
      * right. exists (String c pre), run, post. subst s.
        repeat split; trivial. constructor; assumption.
Qed.

Lemma decimal_value_nonneg (ds : list ascii) :
  Forall (fun c => is_digit c = true) ds -> 0 <= decimal_value ds.
Proof.
  induction 1 as [|d ds Hd _ IH]; simpl; [lia|].
  assert (0 <= digit_value d).
  { unfold is_digit in Hd. unfold digit_value.
    apply andb_prop in Hd. destruct Hd as [Hd _]. lia. }
  assert (0 <= 10 ^ Z.of_nat (List.length ds)) by (apply Z.pow_nonneg; lia).
  nia.
Qed.


(** ** The monitor loop *)

(** Unfolds one run of the script down to the session state and the
    trace it ends with. *)
Ltac unfold_script :=
  cbv [tick compare_and_notify payload_guard fetch_data send_email
       log_append set_monitoring set_last_known_filename set_last_check_time
       set_log st_rerun get_state put_state emit bind ret raise lift
       on_start on_stop on_clear_log sidebar script after outcome];
  cbn [session trace fst snd monitoring last_known_filename last_check_time log].

Ltac flatten_trace :=
  repeat rewrite <- app_assoc; cbn [app].

Lemma interval_passed_true (now last : Q) :
  interval_passed now last = true <-> (CHECK_INTERVAL_SECONDS < now - last)%Q.
Proof.
  unfold interval_passed. rewrite negb_true_iff.
  split; intros H.
  - apply Qnot_le_lt. intros Hle. apply Qle_bool_iff in Hle. congruence.
  - destruct (Qle_bool (now - last) CHECK_INTERVAL_SECONDS) eqn:E; trivial.
    apply Qle_bool_iff in E. exfalso. eapply Qlt_not_le; eassumption.
Qed.

Lemma interval_passed_false (now last : Q) :
  interval_passed now last = false <-> (now - last <= CHECK_INTERVAL_SECONDS)%Q.
Proof.
  unfold interval_passed. rewrite negb_false_iff. apply Qle_bool_iff.
Qed.

Lemma count_app (p : Effect -> bool) (a b : list Effect) :
  count p (a ++ b) = (count p a + count p b)%nat.
Proof. unfold count. now rewrite filter_app, length_app. Qed.

Ltac count_trace :=
  repeat rewrite count_app; cbn; lia.

(** [int(x)] and the floor agree once negative readings are cut at 0. *)
Lemma max0_int_of_float (x : Q) :
  Z.max 0 (Py.int_of_float x) = Z.max 0 (Qfloor x).
Proof.
  destruct x as [n d]. unfold Py.int_of_float, Qfloor. simpl.
  destruct (Z_lt_le_dec n 0) as [Hneg | Hpos].
  - assert (n / Z.pos d < 0) by (apply Z.div_lt_upper_bound; lia).
    assert (Z.quot n (Z.pos d) <= 0).
    { rewrite <- (Z.opp_involutive n), Z.quot_opp_l by lia.
      assert (0 <= Z.quot (- n) (Z.pos d)) by (apply Z.quot_pos; lia). lia. }
    lia.
  - rewrite Z.quot_div_nonneg by lia. reflexivity.
Qed.


Section TickPaths.

Variable py_str : json -> string.

(** Interval not yet over: countdown only. *)
Lemma tick_waiting (e : Env) (w : World) :
  interval_passed (time_at_gate e) (last_check_time (session w)) = false ->
  tick py_str e w =
  (inl RerunException,
   {| session := session w;
      trace := trace w ++
        [status_line w;
         countdown_line (last_check_time (session w)) (time_at_display e);
         Sleep 1] |}).
Proof.
  intros Hgate. unfold_script. rewrite Hgate. cbn [session trace].
  now flatten_trace.
Qed.

(** Interval over, the request fails. *)
Lemma tick_fetch_failed (e : Env) (w : World) (err : string) :
  interval_passed (time_at_gate e) (last_check_time (session w)) = true ->
  http e = HttpFailed err ->
  tick py_str e w =
  (inl RerunException,
   {| session := checked_at (session w) (time_at_gate e);
      trace := trace w ++
        [status_line w;
         HttpGet API_URL 15;
         Toast (fetch_error_text err) "🔥";
         Print "Api Has Been Called"] |}).
Proof.
  intros Hgate Hhttp. unfold_script. rewrite Hgate, Hhttp.
  cbn. now flatten_trace.
Qed.

Lemma dict_get_some_truthy (key : string) (fields : list (string * json)) (v : json) :
  Py.dict_get key fields = Some v -> Py.truthy (JObj fields) = true.
Proof. destruct fields; [discriminate | reflexivity]. Qed.

(** Interval over, the payload is an object without a usable
    "announcements" entry. *)
Lemma tick_nothing_listed (e : Env) (w : World) (fields : list (string * json)) :
  interval_passed (time_at_gate e) (last_check_time (session w)) = true ->
  http e = HttpOk (JObj fields) ->
  Py.dict_get "announcements" fields = None \/
  Py.dict_get "announcements" fields = Some (JArr []) ->
  tick py_str e w =
  (inl RerunException,
   {| session := checked_at (session w) (time_at_gate e);
      trace := trace w ++
        [status_line w; HttpGet API_URL 15; Print "Api Has Been Called"] |}).
Proof.
  intros Hgate Hhttp Hlist. unfold_script. rewrite Hgate, Hhttp.
  cbv [Py.contains Py.getitem].
  destruct (Py.truthy (JObj fields)) eqn:Htruthy.
  - destruct Hlist as [Hnone | Hempty].
    + rewrite Hnone. cbn. now flatten_trace.
    + rewrite Hempty. cbn. now flatten_trace.
  - cbn. now flatten_trace.
Qed.

Lemma getitem_obj (key : string) (fields : list (string * json)) (v : json) :
  Py.dict_get key fields = Some v -> Py.getitem (JObj fields) key = inr v.
Proof. intros H. unfold Py.getitem. now rewrite H. Qed.

Lemma contains_obj (key : string) (fields : list (string * json)) (v : json) :
  Py.dict_get key fields = Some v -> Py.contains key (JObj fields) = inr true.
Proof. intros H. unfold Py.contains. now rewrite H. Qed.

Ltac enter_listing Hgate Hhttp Hanns Htruthy Hlatest Hname :=
  unfold_script; rewrite Hgate, Hhttp;
  rewrite (dict_get_some_truthy _ _ _ Hanns);
  rewrite (contains_obj _ _ _ Hanns);
  rewrite (getitem_obj _ _ _ Hanns);
  cbv beta iota; rewrite Htruthy; cbv beta iota;
  rewrite Hlatest; cbv beta iota; rewrite Hname; cbv beta iota;
  cbn [session trace monitoring last_known_filename last_check_time log
       checked_at].



(** The same listing, but the first entry has no "content" key: the
    f-string of line 160 raises after the log entry was appended, so
    nothing is sent and the marker stays. *)
Lemma tick_new_found_without_content (e : Env) (w : World)
    (fields : list (string * json)) (anns latest : json) (name : string) :
  interval_passed (time_at_gate e) (last_check_time (session w)) = true ->
  http e = HttpOk (JObj fields) ->
  Py.dict_get "announcements" fields = Some anns ->
  Py.truthy anns = true ->
  Py.getitem0 anns = inr latest ->
  Py.getitem latest "filename" = inr (JStr name) ->
  Py.getitem latest "content" = inl KeyError ->
  ordinal w < get_numeric_from_filename name ->
  tick py_str e w =
  (inl KeyError,
   {| session :=
        with_entry (checked_at (session w) (time_at_gate e))
                   (entry_new_found (now_str e) name);
      trace := trace w ++
        [status_line w; HttpGet API_URL 15; Print "Api Has Been Called"] |}).
Proof.
  intros Hgate Hhttp Hanns Htruthy Hlatest Hname Hcontent Hnew.
  enter_listing Hgate Hhttp Hanns Htruthy Hlatest Hname.
  apply Z.gtb_lt in Hnew. unfold ordinal in Hnew. rewrite Hnew.
  rewrite Hcontent. cbn. flatten_trace. reflexivity.
Qed.

(** Whatever a tick meets, it either leaves the marker alone or replaces
    it in the branch of line 151, by a filename that carries a strictly
    larger number. *)
Lemma tick_marker_step (e : Env) (w : World) :
  last_known_filename (session (after (tick py_str e) w))
  = last_known_filename (session w)
  \/ exists data anns latest name,
       interval_passed (time_at_gate e) (last_check_time (session w)) = true /\
       http e = HttpOk data /\
       Py.getitem data "announcements" = inr anns /\
       Py.getitem0 anns = inr latest /\
       Py.getitem latest "filename" = inr (JStr name) /\
       ordinal w < get_numeric_from_filename name /\
       last_known_filename (session (after (tick py_str e) w)) = name.
Proof.
  unfold_script.
  destruct (interval_passed (time_at_gate e) (last_check_time (session w)))
    eqn:Hgate; [|now left].
  destruct (http e) as [data|err] eqn:Hhttp; cbn [session trace]; [|now left].
  destruct (Py.truthy data); [|now left].
  destruct (Py.contains "announcements" data) as [|[|]]; try now left.
  destruct (Py.getitem data "announcements") as [|anns] eqn:Hanns; [now left|].
  destruct (Py.truthy anns); [|now left].
  cbn [session trace].
  destruct (Py.getitem0 anns) as [|latest] eqn:Hlatest; [now left|].
  destruct (Py.getitem latest "filename") as [|[| | |name| |]] eqn:Hname;
    try now left.
  cbn [session trace last_known_filename].
  destruct (get_numeric_from_filename name >?
            get_numeric_from_filename (last_known_filename (session w)))
    eqn:Hcmp; [|now left].
  cbn [session trace last_known_filename].
  destruct (Py.getitem latest "content"); [now left|].
  right. exists data, anns, latest, name.
  apply Z.gtb_lt in Hcmp.
  repeat split; trivial.
  destruct (smtp e); reflexivity.
Qed.

Lemma tick_marker_grows (e : Env) (w : World) :
  ordinal w <= ordinal (after (tick py_str e) w).
Proof.
  destruct (tick_marker_step e w)
    as [Hsame | (data & anns & latest & name & _ & _ & _ & _ & _ & Hlt & Hnew)];
    unfold ordinal in *.
  - rewrite Hsame. lia.
  - rewrite Hnew. lia.
Qed.

(** A tick whose interval is over sends exactly one request, whatever
    comes back. *)
Lemma tick_fetches_once (e : Env) (w : World) :
  interval_passed (time_at_gate e) (last_check_time (session w)) = true ->
  count is_fetch (trace (after (tick py_str e) w))
  = S (count is_fetch (trace w)).
Proof.
  intros Hgate. unfold_script. rewrite Hgate.
  destruct (http e) as [data|err]; cbn [session trace fst snd Py.truthy];
    [|count_trace].
  destruct (Py.truthy data); cbn [session trace fst snd]; [|count_trace].
  destruct (Py.contains "announcements" data) as [|[|]];
    cbn [session trace fst snd]; try count_trace.
  destruct (Py.getitem data "announcements") as [|anns];
    cbn [session trace fst snd]; try count_trace.
  destruct (Py.truthy anns); cbn [session trace fst snd]; try count_trace.
  destruct (Py.getitem0 anns) as [|latest];
    cbn [session trace fst snd]; try count_trace.
  destruct (Py.getitem latest "filename") as [|[| | |name| |]];
    cbn [session trace fst snd]; try count_trace.
  destruct (_ >? _); cbn [session trace fst snd]; try count_trace.
  destruct (Py.getitem latest "content");
    cbn [session trace fst snd]; try count_trace.
  destruct (smtp e); cbn [session trace fst snd]; count_trace.
Qed.

End TickPaths.

(** ** The control handlers *)

Lemma contains_at_iff (r : string) :
  Str.contains "@" r = true <-> In "@"%char (Str.chars r).
Proof.
  unfold Str.chars. induction r as [|c r IH].
  - cbn. split; [discriminate | tauto].
  - cbn [Str.contains prefix list_ascii_of_string In].
    destruct (ascii_dec "@" c) as [Heq | Hne].
    + replace (prefix "" r) with true by (destruct r; reflexivity).
      split; auto.
    + rewrite IH. split; [now right | intros [H | H]; [congruence | exact H]].
Qed.

(** The test of line 99 in the design document's words. *)
Lemma invalid_recipient_iff (r : string) :
  invalid_recipient r = true <-> r = "" \/ ~ In "@"%char (Str.chars r).
Proof.
  unfold invalid_recipient. rewrite orb_true_iff, negb_true_iff.
  split; intros [H | H].
  - left. destruct r; [reflexivity | discriminate].
  - right. rewrite <- contains_at_iff. congruence.
  - left. now subst r.
  - right. destruct (Str.contains "@" r) eqn:E; trivial.
    apply contains_at_iff in E. contradiction.
Qed.

Lemma valid_recipient_iff (r : string) :
  invalid_recipient r = false <-> r <> "" /\ In "@"%char (Str.chars r).
Proof.
  split.
  - intros H. split.
    + intros ->. discriminate.
    + apply contains_at_iff. unfold invalid_recipient in H.
      apply orb_false_iff in H. destruct H as [_ H].
      now apply negb_false_iff in H.
  - intros [Hne Hat]. destruct (invalid_recipient r) eqn:E; trivial.
    apply invalid_recipient_iff in E. tauto.
Qed.

Lemma on_start_rejected (e : Env) (w : World) :
  invalid_recipient (recipient_input e) = true ->
  on_start e w =
  (inr tt,
   {| session := session w;
      trace := trace w ++
        [StWarning
           "Please enter a valid recipient email address before starting."] |}).
Proof. intros H. unfold on_start. rewrite H. reflexivity. Qed.

Lemma on_start_accepted (e : Env) (w : World) :
  invalid_recipient (recipient_input e) = false ->
  on_start e w =
  (inl RerunException,
   {| session := {| monitoring := true;
                    last_known_filename := last_known_filename (session w);
                    last_check_time := 0 # 1;
                    log := log (session w) ++ [entry_started (now_str e)] |};
      trace := trace w |}).
Proof. intros H. unfold on_start. rewrite H. reflexivity. Qed.

Lemma on_stop_eq (e : Env) (w : World) :
  on_stop e w =
  (inl RerunException,
   {| session := {| monitoring := false;
                    last_known_filename := last_known_filename (session w);
                    last_check_time := last_check_time (session w);
                    log := log (session w) ++ [entry_stopped (now_str e)] |};
      trace := trace w |}).
Proof. reflexivity. Qed.

Lemma on_clear_log_eq (w : World) :
  on_clear_log w =
  (inl RerunException,
   {| session := {| monitoring := monitoring (session w);
                    last_known_filename := last_known_filename (session w);
                    last_check_time := last_check_time (session w);
                    log := [] |};
      trace := trace w |}).
Proof. reflexivity. Qed.

Lemma for_each_emit {A} (f : A -> Effect) (xs : list A) (w : World) :
  for_each xs (fun x => emit (f x)) w
  = (inr tt, {| session := session w; trace := trace w ++ map f xs |}).
Proof.
  revert w. induction xs as [|x xs IH]; intros w.
  - cbn. rewrite app_nil_r. now destruct w.
  - cbn [for_each]. unfold bind at 1. unfold emit at 1.
    rewrite IH. cbn. now rewrite <- app_assoc.
Qed.

(** The sidebar never touches the marker. *)
Lemma sidebar_keeps_marker (e : Env) (w : World) :
  last_known_filename (session (after (sidebar e) w))
  = last_known_filename (session w).
Proof.
  unfold sidebar, after.
  destruct (clicked e) as [[| |]|]; unfold bind.
  - destruct (invalid_recipient (recipient_input e)) eqn:H.
    + now rewrite on_start_rejected.
    + now rewrite on_start_accepted.
  - reflexivity.
  - reflexivity.
  - reflexivity.
Qed.

Section ScriptRuns.

Variable py_str : json -> string.

Lemma main_area_eq (e : Env) (w : World) :
  main_area py_str e w =
  let shown := {| session := session w;
                  trace := trace w ++ map Markdown (rev (log (session w))) |} in
  if monitoring (session w) then tick py_str e shown
  else (inr tt,
        {| session := session w;
           trace := trace shown ++ [StatusError status_stopped; MetricCleared] |}).
Proof.
  unfold main_area. unfold bind at 1. unfold get_state at 1.
  unfold bind at 1. rewrite (for_each_emit Markdown). cbn zeta.
  destruct (monitoring (session w)); [reflexivity|].
  cbv [bind emit]. cbn. now flatten_trace.
Qed.

Lemma main_area_marker_grows (e : Env) (w : World) :
  ordinal w <= ordinal (after (main_area py_str e) w).
Proof.
  unfold after. rewrite main_area_eq. cbn zeta.
  destruct (monitoring (session w)).
  - apply (tick_marker_grows py_str e
             {| session := session w;
                trace := trace w ++ map Markdown (rev (log (session w))) |}).
  - unfold ordinal. cbn. lia.
Qed.

Lemma script_marker_grows (e : Env) (w : World) :
  ordinal w <= ordinal (after (script py_str e) w).
Proof.
  pose proof (sidebar_keeps_marker e w) as Hside.
  unfold script, after, bind in *.
  destruct (sidebar e w) as [[ex | []] w1]; cbn [snd] in *.
  - unfold ordinal. rewrite Hside. lia.
  - pose proof (main_area_marker_grows e w1) as Hmain.
    unfold after in Hmain. unfold ordinal in *. rewrite <- Hside. exact Hmain.
Qed.

Lemma run_ticks_marker_grows (es : list Env) (w : World) :
  ordinal w <= ordinal (run_ticks py_str es w).
Proof.
  revert w. induction es as [|e es IH]; intros w; cbn.
  - lia.
  - etransitivity; [apply (tick_marker_grows py_str e w) | apply IH].
Qed.

Lemma run_session_marker_grows (es : list Env) (w : World) :
  ordinal w <= ordinal (run_session py_str es w).
Proof.
  revert w. induction es as [|e es IH]; intros w; cbn.
  - lia.
  - etransitivity; [apply (script_marker_grows e w) | apply IH].
Qed.

End ScriptRuns.

Lemma init_keeps_existing (s : SessionState) :
  init_session_state (store_of s) = s.
Proof. now destruct s. Qed.

(** A fresh process starts stopped, at the configured baseline. *)
Lemma fresh_process_baseline :
  init_session_state empty_store
  = {| monitoring := false;
       last_known_filename := "23.txt";
       last_check_time := 0 # 1;
       log := [] |}.
Proof. reflexivity. Qed.

(** Inside a process a run of the script starts from the state the
    previous run left, and the marker it leaves is not smaller. *)
Lemma run_script_marker_grows (py_str : json -> string) (e : Env)
    (s : SessionState) :
  get_numeric_from_filename (last_known_filename s)
  <= get_numeric_from_filename
       (last_known_filename
          (init_session_state (run_script py_str e (store_of s)))).
Proof.
  unfold run_script. rewrite !init_keeps_existing.
  apply (script_marker_grows py_str e {| session := s; trace := [] |}).
Qed.

(** * The claims of the design document *)

Section Claims.

Variable py_str : json -> string.

Local Open Scope list_scope.



(** C5 (as the code has it). In a tick whose fetch fails, the Fetcher
    shows exactly one failure notice, a toast, and nothing is appended to
    the log; no notification send is attempted; the marker is unchanged;
    and the attempt time is recorded as the last check, so that a later
    tick fetches exactly when its clock reading is more than
    CHECK_INTERVAL after the failed attempt. *)
Theorem fetch_failure_shows_a_toast_only
    (e : Env) (w : World) (err : string) :
  (CHECK_INTERVAL_SECONDS < time_at_gate e - last_check_time (session w))%Q ->
  http e = HttpFailed err ->
  let w' := after (tick py_str e) w in
  trace w' = trace w ++
    [status_line w; HttpGet API_URL 15;
     Toast (fetch_error_text err) "🔥"; Print "Api Has Been Called"]
  /\ count is_notice (trace w') = S (count is_notice (trace w))
  /\ log (session w') = log (session w)
  /\ count is_send (trace w') = count is_send (trace w)
  /\ last_known_filename (session w') = last_known_filename (session w)
  /\ monitoring (session w') = monitoring (session w)
  /\ last_check_time (session w') = time_at_gate e
  /\ forall later : Q,
       interval_passed later (last_check_time (session w')) = true
       <-> (time_at_gate e + CHECK_INTERVAL_SECONDS < later)%Q.
Proof.
  intros Hgate Hhttp w'.
  apply interval_passed_true in Hgate.
  assert (Hrun := tick_fetch_failed py_str e w err Hgate Hhttp).
  subst w'. unfold after. rewrite Hrun. cbn [snd session trace checked_at
    last_check_time last_known_filename log monitoring].
  repeat split; try count_trace.
  - intros H. apply interval_passed_true in H. lra.
  - intros H. apply interval_passed_true. lra.
Qed.


(** C8. In a tick whose fetch succeeds with a payload that has no
    "announcements" key, or whose announcement list is empty, nothing is
    subscripted and nothing is raised but the rerun that ends every tick;
    no notification send is attempted, no log entry is appended and the
    marker is unchanged. *)
Theorem missing_or_empty_listing_is_skipped
    (e : Env) (w : World) (fields : list (string * json)) :
  (CHECK_INTERVAL_SECONDS < time_at_gate e - last_check_time (session w))%Q ->
  http e = HttpOk (JObj fields) ->
  Py.dict_get "announcements" fields = None \/
  Py.dict_get "announcements" fields = Some (JArr []) ->
  let w' := after (tick py_str e) w in
  outcome (tick py_str e) w = inl RerunException
  /\ trace w' = trace w ++
       [status_line w; HttpGet API_URL 15; Print "Api Has Been Called"]
  /\ count is_send (trace w') = count is_send (trace w)
  /\ log (session w') = log (session w)
  /\ last_known_filename (session w') = last_known_filename (session w)
  /\ monitoring (session w') = monitoring (session w).
Proof.
  intros Hgate Hhttp Hlist w'.
  apply interval_passed_true in Hgate.
  assert (Hrun := tick_nothing_listed py_str e w fields Hgate Hhttp Hlist).
  subst w'. unfold after, outcome. rewrite Hrun. cbn [fst snd session trace].
  repeat split. count_trace.
Qed.

(** C2. Over every sequence of ticks, and over every sequence of runs of
    the whole script (button presses included), the ordinal of the stored
    last-known identifier never decreases; and a single tick either leaves
    that identifier as it was, or is a tick whose interval was over, whose
    fetch succeeded and whose first announcement carries a strictly
    greater ordinal, in which case that announcement's identifier is what
    is stored. *)
Theorem marker_never_decreases :
  (forall (es : list Env) (w : World),
      ordinal w <= ordinal (run_ticks py_str es w))
  /\ (forall (es : list Env) (w : World),
        ordinal w <= ordinal (run_session py_str es w))
  /\ (forall (e : Env) (w : World),
        last_known_filename (session (after (tick py_str e) w))
        = last_known_filename (session w)
        \/ exists data anns latest name,
             interval_passed (time_at_gate e) (last_check_time (session w))
             = true /\
             http e = HttpOk data /\
             Py.getitem data "announcements" = inr anns /\
             Py.getitem0 anns = inr latest /\
             Py.getitem latest "filename" = inr (JStr name) /\
             ordinal w < get_numeric_from_filename name /\
             last_known_filename (session (after (tick py_str e) w)) = name).
Proof.
  split; [|split].
  - apply run_ticks_marker_grows.
  - apply run_session_marker_grows.
  - apply tick_marker_step.
Qed.

(** C7. Start with a recipient address that is empty or holds no "@"
    fails validation: the handler changes no field of the session state
    and raises nothing, and the run of the script it belongs to leaves a
    stopped monitor stopped.  Start with a recipient address that is not
    empty and holds an "@" sets [monitoring], puts the last check time
    back to 0 ("never") and appends the "started" entry; the next tick,
    at any clock reading beyond CHECK_INTERVAL seconds after the epoch,
    then sends its request at once. *)
Theorem start_validates_recipient (e : Env) (w : World) :
  let r := recipient_input e in
  let w' := after (on_start e) w in
  ((r = "" \/ ~ In "@"%char (Str.chars r)) ->
     outcome (on_start e) w = inr tt
     /\ session w' = session w
     /\ (clicked e = Some StartMonitoring ->
         monitoring (session w) = false ->
         session (after (script py_str e) w) = session w))
  /\ ((r <> "" /\ In "@"%char (Str.chars r)) ->
      outcome (on_start e) w = inl RerunException
      /\ monitoring (session w') = true
      /\ last_check_time (session w') = 0 # 1
      /\ log (session w') = log (session w) ++ [entry_started (now_str e)]
      /\ last_known_filename (session w') = last_known_filename (session w)
      /\ trace w' = trace w
      /\ forall next : Env,
           (CHECK_INTERVAL_SECONDS < time_at_gate next)%Q ->
           count is_fetch (trace (after (tick py_str next) w'))
           = S (count is_fetch (trace w'))).
Proof.
  intros r w'. subst r w'. split.
  - intros Hbad. apply invalid_recipient_iff in Hbad.
    unfold outcome, after. rewrite (on_start_rejected e w Hbad).
    cbn [fst snd session]. repeat split.
    intros Hclick Hoff. unfold script, sidebar. rewrite Hclick.
    unfold bind at 1. unfold bind at 1. unfold bind at 1.
    rewrite (on_start_rejected e w Hbad). cbv [ret].
    rewrite main_area_eq. cbn [session trace]. rewrite Hoff. reflexivity.
  - intros Hgood. apply valid_recipient_iff in Hgood.
    unfold outcome, after. rewrite (on_start_accepted e w Hgood).
    cbn [fst snd session trace monitoring last_check_time log
         last_known_filename].
    repeat split.
    intros next Hnext.
    match goal with
    | |- context [tick py_str next ?started] =>
        pose proof (tick_fetches_once py_str next started) as Hfetch
    end.
    unfold after in Hfetch. cbn [session trace last_check_time] in Hfetch.
    apply Hfetch. apply interval_passed_true. lra.
Qed.

(** C9. Clear-log replaces the log with the empty sequence and changes
    nothing else: [monitoring], the marker and the last check time are
    what they were, whether monitoring is stopped or running, and no
    effect is produced; a run of the script in which the button was
    pressed ends in the state the handler leaves. *)
Theorem clear_log_only_empties_the_log (w : World) :
  let w' := after on_clear_log w in
  log (session w') = []
  /\ monitoring (session w') = monitoring (session w)
  /\ last_known_filename (session w') = last_known_filename (session w)
  /\ last_check_time (session w') = last_check_time (session w)
  /\ trace w' = trace w
  /\ outcome on_clear_log w = inl RerunException
  /\ forall e : Env,
       clicked e = Some ClearLog -> after (script py_str e) w = w'.
Proof.
  intros w'. subst w'. unfold after, outcome. rewrite on_clear_log_eq.
  cbn [fst snd session trace log monitoring last_known_filename
       last_check_time].
  repeat split.
  intros e Hclick. unfold script, sidebar. rewrite Hclick. reflexivity.
Qed.

(** C10. Stop only clears [monitoring] and appends the "stopped" entry;
    a start with a valid recipient, after a stop or while monitoring is
    already running, only sets [monitoring], puts the last check time back
    to 0 and appends the "started" entry.  Neither touches the marker nor
    removes a log entry, and the initialisation block at the top of the
    script keeps every key that is already in the session state, so the
    marker is not put back to the configured baseline. *)
Theorem stop_and_start_keep_marker_and_log
    (e_stop e_start : Env) (w : World) :
  invalid_recipient (recipient_input e_start) = false ->
  let stopped := after (on_stop e_stop) w in
  let restarted := after (on_start e_start) stopped in
  let started_again := after (on_start e_start) w in
  session stopped =
    {| monitoring := false;
       last_known_filename := last_known_filename (session w);
       last_check_time := last_check_time (session w);
       log := log (session w) ++ [entry_stopped (now_str e_stop)] |}
  /\ session restarted =
    {| monitoring := true;
       last_known_filename := last_known_filename (session w);
       last_check_time := 0 # 1;
       log := log (session w) ++
              [entry_stopped (now_str e_stop); entry_started (now_str e_start)] |}
  /\ session started_again =
    {| monitoring := true;
       last_known_filename := last_known_filename (session w);
       last_check_time := 0 # 1;
       log := log (session w) ++ [entry_started (now_str e_start)] |}
  /\ init_session_state (store_of (session restarted)) = session restarted
  /\ (clicked e_stop = Some StopMonitoring ->
      after (script py_str e_stop) w = stopped)
  /\ (clicked e_start = Some StartMonitoring ->
      after (script py_str e_start) stopped = restarted).
Proof.
  intros Hvalid stopped restarted started_again.
  subst stopped restarted started_again. unfold after.
  rewrite on_stop_eq. cbn [snd].
  rewrite !(on_start_accepted e_start _ Hvalid).
  cbn [snd session trace log monitoring last_known_filename last_check_time].
  rewrite <- app_assoc. cbn [app].
  repeat split.
  - intros Hclick. unfold script, sidebar. rewrite Hclick. reflexivity.
  - intros Hclick. unfold script, sidebar. rewrite Hclick.
    unfold bind at 1. unfold bind at 1. unfold bind at 1.
    rewrite (on_start_accepted e_start _ Hvalid).
    cbn [session trace log monitoring last_known_filename last_check_time].
    rewrite <- app_assoc. reflexivity.
Qed.

End Claims.

(** * The claims at concrete inputs *)

Local Open Scope list_scope.



(** C5 as stated fails: the request times out and the log has no entry
    more than before, where the claim has exactly one. *)
Lemma fetch_failure_appends_no_log_entry :
  http Sample.e_down = HttpFailed "Read timed out."
  /\ interval_passed (time_at_gate Sample.e_down)
       (last_check_time (session (Sample.started "23.txt"))) = true
  /\ log (session (after (tick Sample.py_str Sample.e_down)
                         (Sample.started "23.txt")))
     = log (session (Sample.started "23.txt"))
  /\ List.length (log (session (after (tick Sample.py_str Sample.e_down)
                                      (Sample.started "23.txt"))))
     <> S (List.length (log (session (Sample.started "23.txt")))).
Proof.
  repeat split; try reflexivity. vm_compute. discriminate.
Qed.

Lemma fetch_failure_witness :
  count is_notice
    (trace (after (tick Sample.py_str Sample.e_down) (Sample.started "23.txt")))
  = 1%nat
  /\ log (session (after (tick Sample.py_str Sample.e_down)
                         (Sample.started "23.txt"))) = []
  /\ last_check_time
       (session (after (tick Sample.py_str Sample.e_down)
                       (Sample.started "23.txt"))) = Sample.t0.
Proof.
  pose proof (fetch_failure_shows_a_toast_only Sample.py_str
                Sample.e_down (Sample.started "23.txt") _
                ltac:(vm_compute; reflexivity) eq_refl) as H.
  cbv zeta in H. destruct H as (_ & Hnotice & Hlog & _ & _ & _ & Htime & _).
  split; [exact Hnotice | split; [exact Hlog | exact Htime]].
Defined.



(** start(""), start("no-at-sign") and start("a@b.com") on a stopped
    monitor. *)
Lemma start_witness :
  session (after (on_start (Sample.e_start "")) Sample.stopped)
  = session Sample.stopped
  /\ session (after (script Sample.py_str (Sample.e_start "no-at-sign"))
                    Sample.stopped)
     = session Sample.stopped
  /\ monitoring (session (after (on_start (Sample.e_start "a@b.com"))
                                Sample.stopped)) = true
  /\ last_check_time (session (after (on_start (Sample.e_start "a@b.com"))
                                     Sample.stopped)) = 0 # 1.
Proof.
  pose proof (start_validates_recipient Sample.py_str
                (Sample.e_start "") Sample.stopped) as Hempty.
  pose proof (start_validates_recipient Sample.py_str
                (Sample.e_start "no-at-sign") Sample.stopped) as Hno_at.
  pose proof (start_validates_recipient Sample.py_str
                (Sample.e_start "a@b.com") Sample.stopped) as Hgood.
  cbv zeta in Hempty, Hno_at, Hgood.
  destruct Hempty as [Hempty _]. destruct Hno_at as [Hno_at _].
  destruct Hgood as [_ Hgood].
  destruct (Hempty (or_introl eq_refl)) as (_ & Hsame & _).
  destruct (Hno_at (proj1 (invalid_recipient_iff "no-at-sign") eq_refl))
    as (_ & _ & Hscript).
  destruct (Hgood (proj1 (valid_recipient_iff "a@b.com") eq_refl))
    as (_ & Hon & Hnever & _).
  split; [exact Hsame|].
  split; [exact (Hscript eq_refl eq_refl)|].
  split; [exact Hon | exact Hnever].
Defined.

(** An empty announcement list. *)
Lemma empty_listing_witness :
  outcome (tick Sample.py_str Sample.e_empty_feed) (Sample.started "23.txt")
  = inl RerunException
  /\ log (session (after (tick Sample.py_str Sample.e_empty_feed)
                         (Sample.started "23.txt"))) = []
  /\ last_known_filename
       (session (after (tick Sample.py_str Sample.e_empty_feed)
                       (Sample.started "23.txt"))) = "23.txt".
Proof.
  pose proof (missing_or_empty_listing_is_skipped Sample.py_str
                Sample.e_empty_feed (Sample.started "23.txt") _
                ltac:(vm_compute; reflexivity) eq_refl
                (or_intror eq_refl)) as H.
  cbv zeta in H. destruct H as (Hout & _ & _ & Hlog & Hname & _).
  split; [exact Hout | split; [exact Hlog | exact Hname]].
Defined.

(** Stop, then start again: the marker is still "24.txt" and the earlier
    log entry is still there. *)
Lemma stop_and_start_witness :
  last_known_filename
    (session (after (on_start (Sample.e_start "a@b.com"))
                    (after (on_stop Sample.e_stop) (Sample.started "24.txt"))))
  = "24.txt"
  /\ log (session (after (on_start (Sample.e_start "a@b.com"))
                         (after (on_stop Sample.e_stop) Sample.stopped)))
     = ["earlier entry"; entry_stopped "09:15:00 AM";
        entry_started "09:15:00 AM"].
Proof.
  pose proof (stop_and_start_keep_marker_and_log Sample.py_str
                Sample.e_stop (Sample.e_start "a@b.com")
                (Sample.started "24.txt") eq_refl) as Hfresh.
  pose proof (stop_and_start_keep_marker_and_log Sample.py_str
                Sample.e_stop (Sample.e_start "a@b.com")
                Sample.stopped eq_refl) as Hlog.
  cbv zeta in Hfresh, Hlog.
  destruct Hfresh as (_ & Hfresh & _). destruct Hlog as (_ & Hlog & _).
  split.
  - rewrite Hfresh. reflexivity.
  - rewrite Hlog. reflexivity.
Defined.

(** * Further properties of the script *)

(** ** What a run can add to the world *)

Section Summary.
Variable py_str : json -> string.

Lemma contains_raises (key : string) (v : json) (ex : exn) :
  Py.contains key v = inl ex -> ex = TypeError.
Proof. destruct v; cbn; congruence. Qed.

Lemma getitem_raises (v : json) (key : string) (ex : exn) :
  Py.getitem v key = inl ex -> ex = KeyError \/ ex = TypeError.
Proof.
  destruct v; cbn; try (intros [= <-]; now right).
  destruct (Py.dict_get key fields); [discriminate | intros [= <-]; now left].
Qed.

Lemma getitem0_raises (v : json) (ex : exn) :
  Py.truthy v = true -> Py.getitem0 v = inl ex ->
  ex = KeyError \/ ex = TypeError.
Proof.
  destruct v as [| b | q | s | items | fields]; cbn;
    try (intros _ [= <-]; now right).
  - destruct s; [discriminate | discriminate].
  - destruct items; [discriminate | discriminate].
  - intros _ [= <-]. now left.
Qed.

Ltac close_leaf :=
  first
    [ reflexivity
    | cbn; lia
    | left; reflexivity
    | right; left; reflexivity
    | right; right; reflexivity
    | right; eexists; reflexivity
    | intros Hone; cbn in Hone; discriminate Hone ].

Ltac close_path :=
  solve
    [ eexists; split; [flatten_trace; reflexivity|];
      cbn [session trace fst snd monitoring last_known_filename
           last_check_time log];
      repeat match goal with
             | |- _ /\ _ => split
             end;
      close_leaf ].

Lemma tick_fetching_summary (e : Env) (w : World) :
  interval_passed (time_at_gate e) (last_check_time (session w)) = true ->
  exists added : list Effect,
    trace (after (tick py_str e) w)
    = trace w ++ status_line w :: HttpGet API_URL 15 :: added
    /\ count is_fetch added = 0%nat
    /\ (count is_send added <= 1)%nat
    /\ last_check_time (session (after (tick py_str e) w)) = time_at_gate e
    /\ monitoring (session (after (tick py_str e) w)) = monitoring (session w)
    /\ (log (session (after (tick py_str e) w)) = log (session w)
        \/ exists entry,
             log (session (after (tick py_str e) w)) = log (session w) ++ [entry])
    /\ (outcome (tick py_str e) w = inl RerunException
        \/ outcome (tick py_str e) w = inl KeyError
        \/ outcome (tick py_str e) w = inl TypeError)
    /\ (count is_send added = 1%nat ->
        outcome (tick py_str e) w = inl RerunException
        /\ ordinal w < ordinal (after (tick py_str e) w)).
Proof.
  intros Hgate. unfold_script. rewrite Hgate.
  destruct (http e) as [data|err]; cbn [session trace fst snd Py.truthy];
    [|close_path].
  destruct (Py.truthy data); cbn [session trace fst snd]; [|close_path].
  destruct (Py.contains "announcements" data) as [ex|[|]] eqn:Hin;
    cbn [session trace fst snd];
    [apply contains_raises in Hin; subst ex; close_path | | close_path].
  destruct (Py.getitem data "announcements") as [ex|anns] eqn:Hanns;
    cbn [session trace fst snd].
  { apply getitem_raises in Hanns. destruct Hanns; subst ex; close_path. }
  destruct (Py.truthy anns) eqn:Htruthy; cbn [session trace fst snd];
    [|close_path].
  destruct (Py.getitem0 anns) as [ex|latest] eqn:Hlatest;
    cbn [session trace fst snd].
  { apply getitem0_raises in Hlatest; [|exact Htruthy].
    destruct Hlatest; subst ex; close_path. }
  destruct (Py.getitem latest "filename") as [ex|[| | |name| |]] eqn:Hname;
    cbn [session trace fst snd]; try close_path.
  { apply getitem_raises in Hname. destruct Hname; subst ex; close_path. }
  destruct (_ >? _) eqn:Hcmp; cbn [session trace fst snd]; [|close_path].
  destruct (Py.getitem latest "content") as [ex|content] eqn:Hcontent;
    cbn [session trace fst snd].
  { apply getitem_raises in Hcontent. destruct Hcontent; subst ex; close_path. }
  apply Z.gtb_lt in Hcmp.
  cbn [last_known_filename] in Hcmp.
  destruct (smtp e); cbn [session trace fst snd];
    (eexists; split; [flatten_trace; reflexivity|];
     cbn [session trace fst snd monitoring last_known_filename
          last_check_time log];
     repeat match goal with |- _ /\ _ => split end;
     try close_leaf;
     intros _; split; [reflexivity | exact Hcmp]).
Qed.

(** What any tick adds to the world. *)
Lemma tick_summary (e : Env) (w : World) :
  exists added : list Effect,
    trace (after (tick py_str e) w) = trace w ++ added
    /\ (count is_fetch added <= 1)%nat
    /\ (count is_send added <= count is_fetch added)%nat
    /\ Z.of_nat (count is_send added)
       <= ordinal (after (tick py_str e) w) - ordinal w
    /\ monitoring (session (after (tick py_str e) w)) = monitoring (session w)
    /\ (log (session (after (tick py_str e) w)) = log (session w)
        \/ exists entry,
             log (session (after (tick py_str e) w)) = log (session w) ++ [entry])
    /\ (outcome (tick py_str e) w = inl RerunException
        \/ outcome (tick py_str e) w = inl KeyError
        \/ outcome (tick py_str e) w = inl TypeError).
Proof.
  destruct (interval_passed (time_at_gate e) (last_check_time (session w)))
    eqn:Hgate.
  - destruct (tick_fetching_summary e w Hgate)
      as (added & Htrace & Hfetch & Hsend & _ & Hmon & Hlog & Hout & Hone).
    pose proof (tick_marker_grows py_str e w) as Hgrow.
    exists (status_line w :: HttpGet API_URL 15 :: added).
    split; [exact Htrace|].
    change (status_line w :: HttpGet API_URL 15 :: added)
      with ([status_line w; HttpGet API_URL 15] ++ added).
    rewrite !count_app. cbn [count filter is_fetch is_send status_line
                             List.length Nat.add].
    assert (Hbudget : Z.of_nat (count is_send added)
                      <= ordinal (after (tick py_str e) w) - ordinal w).
    { destruct (Nat.eq_dec (count is_send added) 1) as [H1 | H1].
      - destruct (Hone H1) as [_ Hlt]. lia.
      - lia. }
    repeat match goal with |- _ /\ _ => split end; trivial; lia.
  - unfold after, outcome. rewrite (tick_waiting py_str e w Hgate).
    cbn [fst snd session trace]. eexists. split; [reflexivity|].
    repeat match goal with |- _ /\ _ => split end;
      try (cbn; lia); auto.
    unfold ordinal. cbn [session].
    cbn [count filter is_send status_line countdown_line List.length]. lia.
Qed.


Lemma count_markdown (p : Effect -> bool) (entries : list string) :
  p = is_fetch \/ p = is_send -> count p (map Markdown entries) = 0%nat.
Proof.
  intros Hp. induction entries as [|x xs IH]; [reflexivity|].
  unfold count in *. cbn [map filter].
  destruct Hp as [-> | ->]; cbn; exact IH.
Qed.

(** What the main area adds to the world. *)
Lemma main_area_summary (e : Env) (w : World) :
  exists added : list Effect,
    trace (after (main_area py_str e) w) = trace w ++ added
    /\ (count is_fetch added <= 1)%nat
    /\ (count is_send added <= count is_fetch added)%nat
    /\ Z.of_nat (count is_send added)
       <= ordinal (after (main_area py_str e) w) - ordinal w
    /\ monitoring (session (after (main_area py_str e) w))
       = monitoring (session w)
    /\ (monitoring (session w) = false ->
        count is_fetch added = 0%nat
        /\ session (after (main_area py_str e) w) = session w)
    /\ (log (session (after (main_area py_str e) w)) = log (session w)
        \/ exists entry,
             log (session (after (main_area py_str e) w))
             = log (session w) ++ [entry]).
Proof.
  unfold after. rewrite main_area_eq. cbv zeta.
  destruct (monitoring (session w)) eqn:Hmon.
  - set (shown := {| session := session w;
                     trace := trace w ++ map Markdown (rev (log (session w))) |}).
    destruct (tick_summary e shown)
      as (added & Htrace & Hfetch & Hsend & Hord & Hkeep & Hlog & _).
    unfold after in *.
    exists (map Markdown (rev (log (session w))) ++ added).
    split; [rewrite Htrace; subst shown; cbn [trace]; now rewrite app_assoc|].
    rewrite !count_app, !count_markdown by auto.
    cbn [Nat.add]. subst shown. cbn [session] in *. unfold ordinal in *.
    cbn [session] in *.
    repeat match goal with |- _ /\ _ => split end; trivial; try lia;
      try congruence; try discriminate.
  - cbn [snd session trace]. eexists. split; [now rewrite <- app_assoc|].
    rewrite !count_app, !count_markdown by auto.
    unfold ordinal. cbn [session].
    repeat match goal with |- _ /\ _ => split end;
      try (cbn; lia); auto.
Qed.

(** The five ways the sidebar can go. *)
Lemma sidebar_cases (e : Env) (w : World) :
  (clicked e = None /\ sidebar e w = (inr tt, w))
  \/ (clicked e = Some StartMonitoring
      /\ invalid_recipient (recipient_input e) = true
      /\ sidebar e w
         = (inr tt,
            {| session := session w;
               trace := trace w ++
                 [StWarning
                    "Please enter a valid recipient email address before starting."] |}))
  \/ (clicked e = Some StartMonitoring
      /\ invalid_recipient (recipient_input e) = false
      /\ sidebar e w = on_start e w)
  \/ (clicked e = Some StopMonitoring /\ sidebar e w = on_stop e w)
  \/ (clicked e = Some ClearLog /\ sidebar e w = on_clear_log w).
Proof.
  unfold sidebar.
  destruct (clicked e) as [[| |]|].
  - destruct (invalid_recipient (recipient_input e)) eqn:Hbad.
    + right; left. repeat split.
      unfold bind. now rewrite (on_start_rejected e w Hbad).
    + right; right; left. repeat split.
      unfold bind. now rewrite (on_start_accepted e w Hbad).
  - right; right; right; left. split; reflexivity.
  - right; right; right; right. split; reflexivity.
  - left. split; [reflexivity|]. now destruct w.
Qed.

End Summary.

Ltac split_all := repeat match goal with |- _ /\ _ => split end.

Section More.
Variable py_str : json -> string.

(** What a run of the whole script adds to the world. *)
Lemma script_summary (e : Env) (w : World) :
  exists added : list Effect,
    trace (after (script py_str e) w) = trace w ++ added
    /\ (count is_fetch added <= 1)%nat
    /\ (count is_send added <= count is_fetch added)%nat
    /\ Z.of_nat (count is_send added)
       <= ordinal (after (script py_str e) w) - ordinal w
    /\ (monitoring (session w) = false -> count is_fetch added = 0%nat)
    /\ (clicked e <> Some ClearLog ->
        log (session (after (script py_str e) w)) = log (session w)
        \/ exists entry,
             log (session (after (script py_str e) w))
             = log (session w) ++ [entry])
    /\ ((clicked e = Some StartMonitoring ->
         invalid_recipient (recipient_input e) = true) ->
        monitoring (session w) = false ->
        monitoring (session (after (script py_str e) w)) = false
        /\ last_check_time (session (after (script py_str e) w))
           = last_check_time (session w)
        /\ last_known_filename (session (after (script py_str e) w))
           = last_known_filename (session w)).
Proof.
  unfold after, script, bind.
  destruct (sidebar_cases e w)
    as [(Hclick & Hside) | [(Hclick & Hbad & Hside) | [(Hclick & Hgood & Hside)
       | [(Hclick & Hside) | (Hclick & Hside)]]]];
    rewrite Hside.
  - destruct (main_area_summary py_str e w)
      as (added & Htrace & Hfetch & Hsend & Hord & Hmon & Hoff & Hlog).
    unfold after in *. exists added. split_all; trivial.
    + intros Hstopped. now destruct (Hoff Hstopped).
    + intros _ Hstopped. destruct (Hoff Hstopped) as [_ Hsame].
      rewrite Hsame. auto.
  - set (warned := {| session := session w; trace := _ |}).
    destruct (main_area_summary py_str e warned)
      as (added & Htrace & Hfetch & Hsend & Hord & Hmon & Hoff & Hlog).
    unfold after in *. subst warned. cbn [session trace] in *.
    unfold ordinal in *. cbn [session] in *.
    eexists. split; [rewrite Htrace, <- app_assoc; reflexivity|].
    rewrite !count_app. cbn [count filter is_fetch is_send List.length Nat.add].
    split_all; trivial.
    + intros Hstopped. now destruct (Hoff Hstopped).
    + intros _ Hstopped. destruct (Hoff Hstopped) as [_ Hsame].
      rewrite Hsame. auto.
  - rewrite (on_start_accepted e w Hgood).
    exists []. cbn [snd session trace log monitoring last_check_time
                    last_known_filename].
    unfold ordinal. cbn [session last_known_filename].
    split_all; try (cbn; lia); try (now rewrite app_nil_r); eauto.
    intros Hno. specialize (Hno Hclick). congruence.
  - rewrite on_stop_eq.
    exists []. cbn [snd session trace log monitoring last_check_time
                    last_known_filename].
    unfold ordinal. cbn [session last_known_filename].
    split_all; try (cbn; lia); try (now rewrite app_nil_r); eauto.
  - rewrite on_clear_log_eq.
    exists []. cbn [snd session trace log monitoring last_check_time
                    last_known_filename].
    unfold ordinal. cbn [session last_known_filename].
    split_all; try (cbn; lia); try (now rewrite app_nil_r); eauto.
    intros Hnot. congruence.
Qed.



(** X2. A tick sends at most one request to the endpoint, and it never
    submits an email without having sent a request: at most one
    notification per tick. *)
Theorem tick_effect_budget (e : Env) (w : World) :
  exists added : list Effect,
    trace (after (tick py_str e) w) = trace w ++ added
    /\ (count is_fetch added <= 1)%nat
    /\ (count is_send added <= count is_fetch added)%nat.
Proof.
  destruct (tick_summary py_str e w) as (added & Htrace & Hfetch & Hsend & _).
  exists added. auto.
Qed.

(** X3. Over any sequence of runs of the script, the number of emails
    submitted is at most the number of requests sent, which is at most
    the number of runs, and it is at most the growth of the marker's
    ordinal: every submission goes with a strict increase of the marker. *)
Theorem session_sends_bounded_by_marker_growth (es : list Env) (w : World) :
  exists added : list Effect,
    trace (run_session py_str es w) = trace w ++ added
    /\ (count is_send added <= count is_fetch added)%nat
    /\ (count is_fetch added <= List.length es)%nat
    /\ Z.of_nat (count is_send added)
       <= ordinal (run_session py_str es w) - ordinal w.
Proof.
  revert w. induction es as [|e es IH]; intros w; cbn [run_session fold_left].
  - exists []. rewrite app_nil_r. cbn. split_all; trivial; lia.
  - destruct (script_summary e w)
      as (first & Htrace & Hfetch & Hsend & Hord & _).
    destruct (IH (after (script py_str e) w))
      as (more & Htrace' & Hsend' & Hfetch' & Hord').
    exists (first ++ more).
    unfold run_session in *. rewrite Htrace', Htrace, <- app_assoc.
    rewrite !count_app. cbn [List.length]. split_all; trivial; lia.
Qed.

(** X4. The slot is taken before the request is made: when the interval
    is over, the last check time is the tick's clock reading whatever the
    endpoint answers and whatever is raised afterwards, and a following
    tick that comes CHECK_INTERVAL or less after it sends no request, no
    email and leaves the session state alone. *)
Theorem slot_is_consumed_before_the_fetch (e next : Env) (w : World) :
  (CHECK_INTERVAL_SECONDS < time_at_gate e - last_check_time (session w))%Q ->
  (time_at_gate next - time_at_gate e <= CHECK_INTERVAL_SECONDS)%Q ->
  let w1 := after (tick py_str e) w in
  let w2 := after (tick py_str next) w1 in
  last_check_time (session w1) = time_at_gate e
  /\ session w2 = session w1
  /\ count is_fetch (trace w2) = count is_fetch (trace w1)
  /\ count is_send (trace w2) = count is_send (trace w1).
Proof.
  intros Hgate Hsoon w1 w2.
  apply interval_passed_true in Hgate.
  destruct (tick_fetching_summary py_str e w Hgate)
    as (added & _ & _ & _ & Htime & _).
  fold w1 in Htime. split; [exact Htime|].
  assert (Hwait : interval_passed (time_at_gate next)
                    (last_check_time (session w1)) = false).
  { apply interval_passed_false. now rewrite Htime. }
  assert (Hrun := tick_waiting py_str next w1 Hwait).
  subst w2. unfold after. fold (after (tick py_str e) w). fold w1.
  rewrite Hrun. cbn [snd session trace]. split_all; trivial; count_trace.
Qed.

(** X9. While monitoring is stopped, any sequence of runs without an
    accepted press of Start leaves it stopped: no request is sent, no
    email is submitted, and the marker and the last check time stay. *)
Theorem stopped_monitor_stays_idle (es : list Env) (w : World) :
  Forall no_valid_start es ->
  monitoring (session w) = false ->
  let w' := run_session py_str es w in
  monitoring (session w') = false
  /\ count is_fetch (trace w') = count is_fetch (trace w)
  /\ count is_send (trace w') = count is_send (trace w)
  /\ last_known_filename (session w') = last_known_filename (session w)
  /\ last_check_time (session w') = last_check_time (session w).
Proof.
  intros Hes. revert w.
  induction Hes as [|e es He _ IH]; intros w Hoff; cbn zeta.
  - cbn. auto.
  - cbn [run_session fold_left].
    destruct (script_summary e w)
      as (added & Htrace & _ & Hsend & _ & Hfetch & _ & Hidle).
    specialize (Hfetch Hoff).
    destruct (Hidle He Hoff) as (Hoff' & Htime & Hname).
    destruct (IH (after (script py_str e) w) Hoff')
      as (Hmon & Hf & Hs & Hn & Ht).
    unfold run_session in *.
    rewrite Hf, Hs, Hn, Ht, Htrace, !count_app.
    split_all; trivial; try congruence; lia.
Qed.


(** X11. Unless Clear Log was pressed, a run of the script keeps every
    log entry in place and appends at most one. *)
Theorem log_grows_by_at_most_one_entry (e : Env) (w : World) :
  clicked e <> Some ClearLog ->
  log (session (after (script py_str e) w)) = log (session w)
  \/ exists entry,
       log (session (after (script py_str e) w)) = log (session w) ++ [entry].
Proof.
  intros Hkeep.
  destruct (script_summary e w) as (added & _ & _ & _ & _ & _ & Hlog & _).
  exact (Hlog Hkeep).
Qed.

Lemma run_script_step (e : Env) (st : Store) :
  get_numeric_from_filename (last_known_filename (init_session_state st))
  <= get_numeric_from_filename
       (last_known_filename (init_session_state (run_script py_str e st))).
Proof.
  unfold run_script. rewrite init_keeps_existing.
  apply (script_marker_grows py_str e
           {| session := init_session_state st; trace := [] |}).
Qed.

Lemma run_process_marker_grows (es : list Env) (st : Store) :
  get_numeric_from_filename (last_known_filename (init_session_state st))
  <= get_numeric_from_filename
       (last_known_filename
          (init_session_state (run_process py_str es st))).
Proof.
  revert st. induction es as [|e es IH]; intros st; cbn.
  - lia.
  - etransitivity; [apply (run_script_step e st) | apply IH].
Qed.

(** X12. In a process that starts with an empty session state, after
    any sequence of runs the marker's ordinal is at least 23, the ordinal
    of the configured baseline "23.txt". *)
Theorem process_marker_at_least_baseline (es : list Env) :
  23 <= get_numeric_from_filename
          (last_known_filename
             (init_session_state (run_process py_str es empty_store))).
Proof.
  exact (run_process_marker_grows es empty_store).
Qed.



(** X6. When the first announcement carries a larger ordinal but has no
    "content" key, the tick raises KeyError after it has appended the
    "new announcement" entry: no email is submitted, the marker is not
    advanced, and the last check time is the tick's clock reading. *)
Theorem missing_content_raises_after_logging
    (e : Env) (w : World) (fields : list (string * json))
    (latest : json) (others : list json) (name : string) :
  (CHECK_INTERVAL_SECONDS < time_at_gate e - last_check_time (session w))%Q ->
  http e = HttpOk (JObj fields) ->
  Py.dict_get "announcements" fields = Some (JArr (latest :: others)) ->
  Py.getitem latest "filename" = inr (JStr name) ->
  Py.getitem latest "content" = inl KeyError ->
  ordinal w < get_numeric_from_filename name ->
  let w' := after (tick py_str e) w in
  outcome (tick py_str e) w = inl KeyError
  /\ log (session w') = log (session w) ++ [entry_new_found (now_str e) name]
  /\ count is_send (trace w') = count is_send (trace w)
  /\ last_known_filename (session w') = last_known_filename (session w)
  /\ last_check_time (session w') = time_at_gate e.
Proof.
  intros Hgate Hhttp Hanns Hname Hcontent Hnew w'.
  apply interval_passed_true in Hgate.
  assert (Hrun := tick_new_found_without_content py_str e w fields _ latest name
                    Hgate Hhttp Hanns eq_refl eq_refl Hname Hcontent Hnew).
  subst w'. unfold after, outcome. rewrite Hrun.
  cbn [fst snd session trace log last_known_filename last_check_time
       with_entry checked_at].
  split_all; trivial. count_trace.
Qed.


(** X7. A payload that is a non-zero number, [true], a list that holds
    the string "announcements" or a string that contains it passes no
    guard: the tick raises TypeError at line 142, after the last check
    time was set, with nothing else changed. *)
Theorem unexpected_payload_type_raises_type_error
    (e : Env) (w : World) (data : json) :
  (CHECK_INTERVAL_SECONDS < time_at_gate e - last_check_time (session w))%Q ->
  http e = HttpOk data ->
  (exists q, data = JNum q /\ Qnum q <> 0)
  \/ data = JBool true
  \/ (exists items, data = JArr items /\ In (JStr "announcements") items)
  \/ (exists s, data = JStr s /\ Str.contains "announcements" s = true) ->
  tick py_str e w =
  (inl TypeError,
   {| session := checked_at (session w) (time_at_gate e);
      trace := trace w ++
        [status_line w; HttpGet API_URL 15; Print "Api Has Been Called"] |}).
Proof.
  intros Hgate Hhttp Hshape. apply interval_passed_true in Hgate.
  unfold_script. rewrite Hgate, Hhttp.
  destruct Hshape as [(q & -> & Hq) | [-> | [(items & -> & Hin) | (s & -> & Hin)]]].
  - cbn [Py.truthy Py.contains]. apply Z.eqb_neq in Hq. rewrite Hq.
    cbn. now flatten_trace.
  - cbn. now flatten_trace.
  - assert (Hsome : existsb (Py.is_str "announcements") items = true).
    { apply existsb_exists. exists (JStr "announcements"). split; [exact Hin|].
      reflexivity. }
    destruct items as [|x items]; [contradiction|].
    cbn [Py.truthy Py.contains Py.getitem]. rewrite Hsome.
    cbn. now flatten_trace.
  - destruct s as [|c s]; [discriminate|].
    cbn [Py.truthy Py.contains Py.getitem Str.is_empty negb]. rewrite Hin.
    cbn. now flatten_trace.
Qed.

(** X8. A payload that is falsy (null, false, 0, empty), or in which
    "announcements" does not occur, or whose "announcements" entry is
    falsy, is skipped: the tick ends in the rerun with only the last
    check time changed, whatever the type of the payload. *)
Theorem unusable_payload_is_skipped (e : Env) (w : World) (data : json) :
  (CHECK_INTERVAL_SECONDS < time_at_gate e - last_check_time (session w))%Q ->
  http e = HttpOk data ->
  Py.truthy data = false
  \/ Py.contains "announcements" data = inr false
  \/ (exists listed, Py.getitem data "announcements" = inr listed
                     /\ Py.truthy listed = false) ->
  tick py_str e w =
  (inl RerunException,
   {| session := checked_at (session w) (time_at_gate e);
      trace := trace w ++
        [status_line w; HttpGet API_URL 15; Print "Api Has Been Called"] |}).
Proof.
  intros Hgate Hhttp Hshape. apply interval_passed_true in Hgate.
  unfold_script. rewrite Hgate, Hhttp.
  destruct (Py.truthy data) eqn:Htruthy; [|cbn; now flatten_trace].
  destruct Hshape as [Hfalse | [Hout | (listed & Hget & Hlisted)]].
  - discriminate.
  - rewrite Hout. cbn. now flatten_trace.
  - assert (Hin : Py.contains "announcements" data = inr true).
    { destruct data; try discriminate. cbn in *.
      destruct (Py.dict_get "announcements" fields); [reflexivity|discriminate]. }
    rewrite Hin, Hget. cbv beta iota. rewrite Hlisted. cbn. now flatten_trace.
Qed.

End More.

(** X13. When the clock has not gone back behind the last check, the
    countdown is between 0 and 300 seconds, and it is 0 once a full
    interval has passed. *)
Theorem time_left_bounds (last now : Q) :
  (last <= now)%Q ->
  0 <= time_left last now <= 300
  /\ ((last + CHECK_INTERVAL_SECONDS <= now)%Q -> time_left last now = 0).
Proof.
  intros Hpast. unfold time_left. rewrite max0_int_of_float.
  set (x := (last + CHECK_INTERVAL_SECONDS - now)%Q).
  assert (Hle : Qfloor x <= Qfloor CHECK_INTERVAL_SECONDS).
  { apply Qfloor_resp_le. subst x. lra. }
  change (Qfloor CHECK_INTERVAL_SECONDS) with 300 in Hle.
  split; [lia|].
  intros Hover.
  assert (Hzero : Qfloor x <= Qfloor 0).
  { apply Qfloor_resp_le. subst x. lra. }
  change (Qfloor 0) with 0 in Hzero. lia.
Qed.

Lemma countdown_text_table :
  forallb (fun n => is_mm_ss (countdown_text (Z.of_nat n))) (seq 0 (Z.to_nat 6000)) = true.
Proof. vm_compute. reflexivity. Qed.

(** X14. For a countdown below 100 minutes the text displayed is two
    digits, a colon and two digits. *)
Theorem countdown_text_is_mm_ss (left : Z) :
  0 <= left < 6000 -> is_mm_ss (countdown_text left) = true.
Proof.
  intros Hrange.
  pose proof countdown_text_table as Htable.
  rewrite forallb_forall in Htable.
  specialize (Htable (Z.to_nat left)).
  rewrite Z2Nat.id in Htable by lia.
  apply Htable. apply in_seq. lia.
Qed.

Lemma get_numeric_nonneg (s : string) : 0 <= get_numeric_from_filename s.
Proof.
  destruct (first_run_exists s)
    as [Hno | (pre & run & post & -> & Hpre & Hne & Hrun & Hpost)].
  - rewrite get_numeric_no_digits by assumption. lia.
  - rewrite get_numeric_of_first_run by assumption.
    now apply decimal_value_nonneg.
Qed.


(** X16. The ordinal of an identifier is never negative. *)
Theorem ordinal_is_never_negative (filename : string) :
  0 <= get_numeric_from_filename filename.
Proof. apply get_numeric_nonneg. Qed.


Section Listing.
Variable py_str : json -> string.


(** X18. Only the first element of the announcement list is examined:
    two payloads whose lists begin with the same announcement give the
    same tick, whatever follows in the lists. *)
Theorem only_the_first_announcement_is_examined
    (e : Env) (w : World) (fields fields' : list (string * json))
    (latest : json) (others others' : list json) :
  Py.dict_get "announcements" fields = Some (JArr (latest :: others)) ->
  Py.dict_get "announcements" fields' = Some (JArr (latest :: others')) ->
  tick py_str (with_http e (HttpOk (JObj fields))) w
  = tick py_str (with_http e (HttpOk (JObj fields'))) w.
Proof.
  intros Hanns Hanns'. unfold_script.
  cbn [time_at_gate time_at_display now_str http smtp with_http].
  destruct (interval_passed (time_at_gate e) (last_check_time (session w)));
    [|reflexivity].
  rewrite (dict_get_some_truthy _ _ _ Hanns), (dict_get_some_truthy _ _ _ Hanns').
  rewrite (contains_obj _ _ _ Hanns), (contains_obj _ _ _ Hanns').
  rewrite (getitem_obj _ _ _ Hanns), (getitem_obj _ _ _ Hanns').
  reflexivity.
Qed.

End Listing.

(** ** The further properties at concrete inputs *)

(** The request at [t0] times out; half a second later the feed would
    show "24.txt", but no second request is made. *)
Lemma slot_witness :
  count is_fetch
    (trace (after (tick Sample.py_str Sample.e_half_second_later)
                  (after (tick Sample.py_str Sample.e_down)
                         (Sample.started "23.txt")))) = 1%nat
  /\ count is_send
       (trace (after (tick Sample.py_str Sample.e_half_second_later)
                     (after (tick Sample.py_str Sample.e_down)
                            (Sample.started "23.txt")))) = 0%nat.
Proof.
  pose proof (slot_is_consumed_before_the_fetch Sample.py_str
                Sample.e_down Sample.e_half_second_later (Sample.started "23.txt")
                ltac:(vm_compute; reflexivity)
                ltac:(vm_compute; discriminate)) as H.
  cbv zeta in H. destruct H as (_ & _ & Hfetch & Hsend).
  rewrite Hfetch, Hsend. split; reflexivity.
Defined.


Lemma missing_content_witness :
  outcome (tick Sample.py_str Sample.e_bare_entry) (Sample.started "23.txt")
  = inl KeyError
  /\ last_known_filename
       (session (after (tick Sample.py_str Sample.e_bare_entry)
                       (Sample.started "23.txt"))) = "23.txt"
  /\ List.length
       (log (session (after (tick Sample.py_str Sample.e_bare_entry)
                            (Sample.started "23.txt")))) = 1%nat.
Proof.
  pose proof (missing_content_raises_after_logging Sample.py_str
                Sample.e_bare_entry (Sample.started "23.txt") _ _ _ _
                ltac:(vm_compute; reflexivity) eq_refl eq_refl eq_refl eq_refl
                ltac:(vm_compute; reflexivity)) as H.
  cbv zeta in H. destruct H as (Hout & Hlog & _ & Hname & _).
  split; [exact Hout | split; [exact Hname | rewrite Hlog; reflexivity]].
Defined.

(** The endpoint answers with the JSON number 5. *)
Lemma number_payload_witness :
  outcome (tick Sample.py_str Sample.e_number) (Sample.started "23.txt")
  = inl TypeError.
Proof.
  assert (Hshape :
    (exists q, JNum (5 # 1) = JNum q /\ Qnum q <> 0)
    \/ JNum (5 # 1) = JBool true
    \/ (exists items, JNum (5 # 1) = JArr items
                      /\ In (JStr "announcements") items)
    \/ (exists s, JNum (5 # 1) = JStr s
                  /\ Str.contains "announcements" s = true)).
  { left. exists (5 # 1). split; [reflexivity | discriminate]. }
  pose proof (unexpected_payload_type_raises_type_error Sample.py_str
                Sample.e_number (Sample.started "23.txt") (JNum (5 # 1))
                ltac:(vm_compute; reflexivity) eq_refl Hshape) as H.
  unfold outcome. rewrite H. reflexivity.
Defined.

(** The endpoint answers with the JSON value null. *)
Lemma null_payload_witness :
  outcome (tick Sample.py_str Sample.e_null) (Sample.started "23.txt")
  = inl RerunException
  /\ log (session (after (tick Sample.py_str Sample.e_null)
                         (Sample.started "23.txt"))) = [].
Proof.
  pose proof (unusable_payload_is_skipped Sample.py_str
                Sample.e_null (Sample.started "23.txt") JNull
                ltac:(vm_compute; reflexivity) eq_refl (or_introl eq_refl)) as H.
  unfold outcome, after. rewrite H. split; reflexivity.
Defined.

(** A rejected start and then an idle run, on a stopped monitor. *)
Lemma idle_witness :
  monitoring
    (session (run_session Sample.py_str
                [Sample.e_start "no-at-sign"; Sample.e_feed_24_later SmtpOk]
                Sample.stopped)) = false
  /\ count is_fetch
       (trace (run_session Sample.py_str
                 [Sample.e_start "no-at-sign"; Sample.e_feed_24_later SmtpOk]
                 Sample.stopped)) = 0%nat.
Proof.
  assert (Hruns : Forall no_valid_start
                    [Sample.e_start "no-at-sign"; Sample.e_feed_24_later SmtpOk]).
  { apply Forall_cons; [intros _; reflexivity|].
    apply Forall_cons; [intros Hclick; discriminate Hclick|].
    apply Forall_nil. }
  pose proof (stopped_monitor_stays_idle Sample.py_str _ Sample.stopped
                Hruns eq_refl) as H.
  cbv zeta in H. destruct H as (Hoff & Hfetch & _).
  split; [exact Hoff | rewrite Hfetch; reflexivity].
Defined.


Lemma log_growth_witness :
  log (session (after (script Sample.py_str (Sample.e_feed_24 SmtpOk))
                      (Sample.started "23.txt")))
  = log (session (Sample.started "23.txt"))
  \/ exists entry,
       log (session (after (script Sample.py_str (Sample.e_feed_24 SmtpOk))
                           (Sample.started "23.txt")))
       = log (session (Sample.started "23.txt")) ++ [entry].
Proof.
  apply (log_grows_by_at_most_one_entry Sample.py_str (Sample.e_feed_24 SmtpOk)
           (Sample.started "23.txt")).
  discriminate.
Defined.

(** Half a second after a check. *)
Lemma time_left_witness :
  0 <= time_left Sample.t0 Sample.half_past_t0 <= 300.
Proof.
  apply (time_left_bounds Sample.t0 Sample.half_past_t0).
  vm_compute. discriminate.
Defined.

Lemma countdown_text_witness :
  is_mm_ss (countdown_text 299) = true.
Proof.
  apply (countdown_text_is_mm_ss 299). lia.
Defined.



(** "99.txt" in second place goes unnoticed. *)
Lemma second_place_witness :
  tick Sample.py_str
       (with_http (Sample.e_feed_24 SmtpOk) (HttpOk Sample.feed_24))
       (Sample.started "23.txt")
  = tick Sample.py_str
         (with_http (Sample.e_feed_24 SmtpOk) (HttpOk Sample.feed_24_then_99))
         (Sample.started "23.txt").
Proof.
  exact (only_the_first_announcement_is_examined Sample.py_str
           (Sample.e_feed_24 SmtpOk) (Sample.started "23.txt")
           [("announcements",
             JArr [Sample.announcement "24.txt" "<p>Result published</p>";
                   Sample.announcement "23.txt" "<p>Schedule</p>"])]
           [("announcements",
             JArr [Sample.announcement "24.txt" "<p>Result published</p>";
                   Sample.announcement "99.txt" "<p>Later notice</p>"])]
           (Sample.announcement "24.txt" "<p>Result published</p>")
           [Sample.announcement "23.txt" "<p>Schedule</p>"]
           [Sample.announcement "99.txt" "<p>Later notice</p>"]
           eq_refl eq_refl).
Defined.
